(** * The step execution contract of the ingestion workflow

    A shallow embedding of [metadata/ingestion/api/step.py]: the four step
    variants ([ReturnStep], [StageStep], [IterStep], [BulkStep]), the way
    their [run] wrappers translate result envelopes into updates of the
    step's [Status], and the treatment of [WorkflowFatalError] against any
    other exception.

    Python objects are mutated in place; here the step's status and the
    module logger are threaded explicitly through an execution monad whose
    computations either complete normally or raise.  The generator returned
    by [IterStep.run] is a resumable frame driven by the consumer's [next]
    calls. *)

From stdpp Require Import base list strings.
From Stdlib Require Import Lia.

(* ------------------------------------------------------------------ *)
(** ** Collaborators imported by step.py                                *)
(* ------------------------------------------------------------------ *)

Module models.

(** Modelled from the spec: [metadata.ingestion.api.models.StackTraceError]
    is imported by step.py but defined elsewhere.  The spec's Failure Record
    is [{name, error, stackTrace}]; the field names are the keyword arguments
    step.py passes to the constructor. *)
Record StackTraceError : Type := {
  name : string;
  error : string;
  stack_trace : string
}.

(** Modelled from the spec: [metadata.ingestion.api.models.Either] is
    imported by step.py but defined elsewhere.  step.py reads the two
    attributes [left] and [right] and compares each with [None], so both are
    optional; nothing in step.py excludes an envelope with both sides or with
    neither. *)
Record Either (T : Type) : Type := {
  left : option StackTraceError;
  right : option T
}.

Arguments left {T} _.
Arguments right {T} _.

End models.

Abbreviation StackTraceError := models.StackTraceError.
Abbreviation Either := models.Either.

Module Status.

(** Modelled from the spec: [metadata.ingestion.api.status.Status] is
    imported by step.py but defined elsewhere.  The spec's Status Recorder is
    [{successCount, failureCount, failures}]; successes are only counted. *)
Record t : Type := {
  successCount : nat;
  failureCount : nat;
  failures : list StackTraceError
}.

(** [Status()] as built by [Step.__init__]. *)
Definition init : t :=
  {| successCount := 0; failureCount := 0; failures := [] |}.

(** Modelled from the spec: [recordFailure] increments [failureCount] and
    appends the record.  This is [Status.failed] in step.py. *)
Definition failed (err : StackTraceError) (st : t) : t :=
  {| successCount := st.(successCount);
     failureCount := S st.(failureCount);
     failures := st.(failures) ++ [err] |}.

(** Modelled from the spec: [recordSuccess] increments [successCount]; the
    payload itself is not retained.  This is [Status.scanned] in step.py. *)
Definition scanned {T : Type} (record : T) (st : t) : t :=
  {| successCount := S st.(successCount);
     failureCount := st.(failureCount);
     failures := st.(failures) |}.

(** Both counters of [a] are at most those of [b]. *)
Definition le (a b : t) : Prop :=
  a.(successCount) <= b.(successCount) /\ a.(failureCount) <= b.(failureCount).

End Status.

(* ------------------------------------------------------------------ *)
(** ** Exceptions, logging and the execution monad                      *)
(* ------------------------------------------------------------------ *)

(** The classes the handler clauses of the wrappers tell apart:
    [WorkflowFatalError] (the class or a subclass of it), every other class
    derived from [Exception], and the classes derived from [BaseException]
    alone ([KeyboardInterrupt], [SystemExit], [GeneratorExit]), which neither
    clause matches. *)
Inductive ExcClass : Type :=
| WorkflowFatalError
| Exception
| BaseException.

(** A raised exception object: its class, [str(exc)] as interpolated into
    the f-strings, and the text [traceback.format_exc()] returns while the
    exception is being handled. *)
Record PyExc : Type := {
  exc_class : ExcClass;
  exc_str : string;
  exc_traceback : string
}.

Inductive Level : Type := ERROR | WARNING.

(** One call of [logger.error] or [logger.warning]. *)
Definition LogRecord : Type := (Level * string)%type.

(** What a run can touch: the step's own [self.status] and the module
    level [logger]. *)
Record Env : Type := {
  status : Status.t;
  logger : list LogRecord
}.

(** A statement either completes with a value or raises. *)
Inductive Completion (A : Type) : Type :=
| Normal (a : A)
| Raise (e : PyExc).

Arguments Normal {A} a.
Arguments Raise {A} e.

Definition Exec (A : Type) : Type := Env -> Completion A * Env.

Definition ret {A : Type} (a : A) : Exec A := fun s => (Normal a, s).

Definition bind {A B : Type} (m : Exec A) (k : A -> Exec B) : Exec B :=
  fun s =>
    match m s with
    | (Normal a, s') => k a s'
    | (Raise e, s') => (Raise e, s')
    end.

Definition raise {A : Type} (e : PyExc) : Exec A := fun s => (Raise e, s).

(** The outcome of calling an abstract method supplied by a subclass. *)
Definition call {A : Type} (c : Completion A) : Exec A := fun s => (c, s).

(** [try: body  except ... as e: handler e]. An exception raised by the
    handler itself is not caught again; a handler that re-raises [e] also
    stands for the case where no clause matches and [e] goes on unhandled. *)
Definition try_except {A : Type} (body : Exec A) (handler : PyExc -> Exec A)
  : Exec A :=
  fun s =>
    match body s with
    | (Normal a, s') => (Normal a, s')
    | (Raise e, s') => handler e s'
    end.

Declare Scope exec_scope.
Delimit Scope exec_scope with exec.
Notation "x <- c1 ;; c2" := (bind c1 (fun x => c2))
  (at level 100, c1 at next level, right associativity) : exec_scope.
Notation "c1 ;; c2" := (bind c1 (fun _ => c2))
  (at level 100, right associativity) : exec_scope.

Definition env_failed (err : StackTraceError) (s : Env) : Env :=
  {| status := Status.failed err s.(status); logger := s.(logger) |}.

Definition env_scanned {T : Type} (record : T) (s : Env) : Env :=
  {| status := Status.scanned record s.(status); logger := s.(logger) |}.

Definition env_log (lvl : Level) (msg : string) (s : Env) : Env :=
  {| status := s.(status); logger := s.(logger) ++ [(lvl, msg)] |}.

(** [self.status.failed(err)] *)
Definition status_failed (err : StackTraceError) : Exec unit :=
  fun s => (Normal tt, env_failed err s).

(** [self.status.scanned(record)] *)
Definition status_scanned {T : Type} (record : T) : Exec unit :=
  fun s => (Normal tt, env_scanned record s).

(** [logger.error(msg)] *)
Definition logger_error (msg : string) : Exec unit :=
  fun s => (Normal tt, env_log ERROR msg s).

(** [logger.warning(msg)] *)
Definition logger_warning (msg : string) : Exec unit :=
  fun s => (Normal tt, env_log WARNING msg s).

(** A fresh step: [self.status = Status()], nothing logged yet. *)
Definition Step_init : Env := {| status := Status.init; logger := [] |}.

(** An iterable as the [for] statement sees it: the outcome of each
    successive [__next__] call, an item or a raised exception; the end of the
    list is [StopIteration]. *)
Definition Iterable (A : Type) : Type := list (Completion A).

(** [for x in it: body x].  The loop stops at the first exception, raised
    by the iterable or by the body, and never pulls again. *)
Fixpoint for_in {A : Type} (it : Iterable A) (body : A -> Exec unit)
  : Exec unit :=
  match it with
  | [] => ret tt
  | Normal x :: rest => (body x ;; for_in rest body)%exec
  | Raise e :: _ => raise e
  end.

(** [if o is not None: f o] *)
Definition if_not_None {A : Type} (o : option A) (f : A -> Exec unit)
  : Exec unit :=
  match o with
  | Some a => f a
  | None => ret tt
  end.

(* ------------------------------------------------------------------ *)
(** ** step.py                                                          *)
(* ------------------------------------------------------------------ *)

Section Step.

(** The payload type: opaque, only tested against [None], counted and
    forwarded. *)
Variable Entity : Type.

(** [str(self)], as interpolated into the log messages. *)
Variable self_str : string.

(** [StackTraceError(name="Unhandled", error=error,
    stack_trace=traceback.format_exc())] *)
Definition Unhandled (error : string) (exc : PyExc) : StackTraceError :=
  {| models.name := "Unhandled";
     models.error := error;
     models.stack_trace := exc.(exc_traceback) |}.

(** [except WorkflowFatalError as err]: log at error severity, re-raise the
    same object.  The clause is the same in the three wrappers. *)
Definition except_WorkflowFatalError {A : Type} (err : PyExc) : Exec A :=
  (logger_error
     ("Fatal error running step [" +:+ self_str +:+ "]: ["
        +:+ err.(exc_str) +:+ "]") ;;
   raise err)%exec.

(** The text bound to [error] in the [except Exception] clause of
    [ReturnStep.run] and [StageStep.run]. *)
Definition unhandled_message (exc : PyExc) : string :=
  "Unhandled exception during workflow processing: [" +:+ exc.(exc_str)
    +:+ "]".

(** The text bound to [error] in the [except Exception] clause of
    [IterStep.run]. *)
Definition encountered_message (exc : PyExc) : string :=
  "Encountered exception running step [" +:+ self_str +:+ "]: ["
    +:+ exc.(exc_str) +:+ "]".

(** [except Exception as exc]: warn, record an "Unhandled" failure, and
    fall out of the [try] statement. *)
Definition except_Exception (error : string) (exc : PyExc) : Exec unit :=
  (logger_warning error ;;
   status_failed (Unhandled error exc))%exec.

(** *** ReturnStep *)

(** [ReturnStep.run].  [_run] is abstract: the argument is the completion of
    the subclass's unit of work.  A path through the [try] statement that
    meets no [return] reaches the final [return None]. *)
Definition ReturnStep_run (_run : Completion (Either Entity))
  : Exec (option Entity) :=
  try_except
    (result <- call _run ;;
     match models.left result with
     | Some l => status_failed l ;; ret None
     | None =>
         match models.right result with
         | Some r => status_scanned r ;; ret (Some r)
         | None => ret None
         end
     end)%exec
    (fun exc =>
       match exc.(exc_class) with
       | WorkflowFatalError => except_WorkflowFatalError exc
       | Exception =>
           except_Exception (unhandled_message exc) exc ;; ret None
       | BaseException => raise exc
       end)%exec.

(** *** StageStep *)

(** The body of the drain loop of [StageStep.run]: two independent tests. *)
Definition StageStep_body {T : Type} (result : Either T) : Exec unit :=
  (if_not_None (models.left result) status_failed ;;
   if_not_None (models.right result) status_scanned)%exec.

(** [StageStep.run].  [_run] is abstract: the argument is the iterable the
    subclass produces. *)
Definition StageStep_run (_run : Iterable (Either string)) : Exec unit :=
  try_except
    (for_in _run StageStep_body)
    (fun exc =>
       match exc.(exc_class) with
       | WorkflowFatalError => except_WorkflowFatalError exc
       | Exception => except_Exception (unhandled_message exc) exc
       | BaseException => raise exc
       end).

(** *** IterStep *)

(** Where the generator created by [IterStep.run] is suspended.  [it] is
    what is left of [self._iter()]. *)
Inductive Frame : Type :=
| Created (it : Iterable (Either Entity))
| AtYieldNone (result : Either Entity) (it : Iterable (Either Entity))
| AtYieldRight (it : Iterable (Either Entity))
| Closed.

(** What one [next()] on the generator gives its consumer. *)
Inductive Resumed : Type :=
| Yield (v : option Entity)
| StopIteration
| Raised (e : PyExc).

(** The handlers of [IterStep.run]; an exception that neither clause
    matches leaves the generator as it came. *)
Definition IterStep_except (exc : PyExc) : Exec unit :=
  match exc.(exc_class) with
  | WorkflowFatalError => except_WorkflowFatalError exc
  | Exception => except_Exception (encountered_message exc) exc
  | BaseException => raise exc
  end.

(** Leaving the [try] statement ends the generator: it returns, or the
    re-raised exception leaves it. *)
Definition leave (c : Completion unit * Env) : Resumed * Frame * Env :=
  match c with
  | (Normal _, s) => (StopIteration, Closed, s)
  | (Raise e, s) => (Raised e, Closed, s)
  end.

(** The second test of the loop body, where execution also resumes after
    [yield None]; [continue] is the next turn of the loop. *)
Definition test_right (result : Either Entity) (it : Iterable (Either Entity))
  (continue : Env -> Resumed * Frame * Env) (s : Env)
  : Resumed * Frame * Env :=
  match models.right result with
  | Some r => (Yield (Some r), AtYieldRight it, env_scanned r s)
  | None => continue s
  end.

(** Run from the head of the [for] statement up to the next suspension. *)
Fixpoint loop (it : Iterable (Either Entity)) (s : Env)
  : Resumed * Frame * Env :=
  match it with
  | [] => (StopIteration, Closed, s)
  | Raise e :: _ => leave (IterStep_except e s)
  | Normal result :: rest =>
      match models.left result with
      | Some l => (Yield None, AtYieldNone result rest, env_failed l s)
      | None => test_right result rest (loop rest) s
      end
  end.

(** [next(gen)] *)
Definition next (g : Frame) (s : Env) : Resumed * Frame * Env :=
  match g with
  | Created it => loop it s
  | AtYieldNone result it => test_right result it (loop it) s
  | AtYieldRight it => loop it s
  | Closed => (StopIteration, Closed, s)
  end.

(** [IterStep.run].  Calling a generator function runs none of its body. *)
Definition IterStep_run (_iter : Iterable (Either Entity)) : Frame :=
  Created _iter.

(** How a consumer stopped pulling. *)
Inductive Ending : Type :=
| Suspended (g : Frame)
| Exhausted
| Aborted (e : PyExc).

(** A consumer that calls [next] at most [n] times and stops at
    [StopIteration] or at an exception: the values it received, how it
    stopped, and what it left behind. *)
Fixpoint pull (n : nat) (g : Frame) (s : Env)
  : list (option Entity) * Ending * Env :=
  match n with
  | 0 => ([], Suspended g, s)
  | S n' =>
      match next g s with
      | (Yield v, g', s') =>
          let '(vs, e, s'') := pull n' g' s' in (v :: vs, e, s'')
      | (StopIteration, _, s') => ([], Exhausted, s')
      | (Raised e, _, s') => ([], Aborted e, s')
      end
  end.

(** *** BulkStep *)

(** [BulkStep.run] is abstract and nothing in the class wraps it: a call
    runs the subclass's own method. *)
Definition BulkStep_run (run : Exec unit) : Exec unit := run.

(** A call on the status recorder. *)
Inductive StatusCall : Type :=
| CallFailed (err : StackTraceError)
| CallScanned (record : Entity).

Definition status_call (c : StatusCall) : Exec unit :=
  match c with
  | CallFailed err => status_failed err
  | CallScanned record => status_scanned record
  end.

(** A bulk [run] that keeps its own books through the recorder's two
    operations and then returns or raises. *)
Fixpoint bulk_run (calls : list StatusCall) (fin : Completion unit)
  : Exec unit :=
  match calls with
  | [] => call fin
  | c :: rest => (status_call c ;; bulk_run rest fin)%exec
  end.

(** *** Envelopes *)

Definition is_Failure {T : Type} (e : Either T) : bool :=
  match models.left e with Some _ => true | None => false end.

Definition is_Payload {T : Type} (e : Either T) : bool :=
  match models.right e with Some _ => true | None => false end.

(** The envelope holds exactly one of failure or payload. *)
Definition exactly_one {T : Type} (e : Either T) : bool :=
  xorb (is_Failure e) (is_Payload e).

(** [Either(left=f)] and [Either(right=x)] *)
Definition Failure {T : Type} (f : StackTraceError) : Either T :=
  {| models.left := Some f; models.right := None |}.

Definition Payload {T : Type} (x : T) : Either T :=
  {| models.left := None; models.right := Some x |}.

(** *** Bookkeeping, as a function of the envelopes *)

(** Number of envelopes with a failure side, with a payload side. *)
Definition count_Failure {T : Type} (envs : list (Either T)) : nat :=
  length (List.filter is_Failure envs).

Definition count_Payload {T : Type} (envs : list (Either T)) : nat :=
  length (List.filter is_Payload envs).

(** What the consumer receives for one source envelope. *)
Definition emissions (e : Either Entity) : list (option Entity) :=
  (if is_Failure e then [None] else []) ++
  (if is_Payload e then [models.right e] else []).

(** The recorder after the envelopes [envs] have been booked, in order,
    starting from [s]. *)
Definition recorded {T : Type} (envs : list (Either T)) (s : Env) : Env :=
  {| status :=
       {| Status.successCount :=
            s.(status).(Status.successCount) + count_Payload envs;
          Status.failureCount :=
            s.(status).(Status.failureCount) + count_Failure envs;
          Status.failures :=
            s.(status).(Status.failures) ++ omap models.left envs |};
     logger := s.(logger) |}.

(** The bookkeeping of one turn of the loop. *)
Definition book {T : Type} (e : Either T) (s : Env) : Env :=
  let s1 :=
    match models.left e with Some l => env_failed l s | None => s end in
  match models.right e with Some r => env_scanned r s1 | None => s1 end.

(** The environment an [except Exception] clause leaves behind. *)
Definition after_unhandled (error : string) (exc : PyExc) (s : Env) : Env :=
  {| status :=
       {| Status.successCount := s.(status).(Status.successCount);
          Status.failureCount := S s.(status).(Status.failureCount);
          Status.failures :=
            s.(status).(Status.failures) ++
            [{| models.name := "Unhandled";
                models.error := error;
                models.stack_trace := exc.(exc_traceback) |}] |};
     logger := s.(logger) ++ [(WARNING, error)] |}.

Definition prepend (vs0 : list (option Entity))
  (r : list (option Entity) * Ending * Env)
  : list (option Entity) * Ending * Env :=
  (vs0 ++ r.1.1, r.1.2, r.2).

(** The frame [g] resumes at the head of the loop over [it]. *)
Definition resumes_at (g : Frame) (it : Iterable (Either Entity)) : Prop :=
  forall s, next g s = loop it s.

(** *** Inputs of the scenarios *)

Definition ParseError : StackTraceError :=
  {| models.name := "ParseError";
     models.error := "bad row";
     models.stack_trace := "..." |}.

Definition connection_lost : PyExc :=
  {| exc_class := WorkflowFatalError;
     exc_str := "connection lost";
     exc_traceback := "Traceback (most recent call last): ..." |}.

Definition boom : PyExc :=
  {| exc_class := Exception;
     exc_str := "boom";
     exc_traceback := "Traceback (most recent call last): ..." |}.

Definition keyboard_interrupt : PyExc :=
  {| exc_class := BaseException;
     exc_str := "interrupted";
     exc_traceback := "Traceback (most recent call last): ..." |}.

(** A source whose first pull raises and whose second pull would give a
    payload. *)
Definition still_viable : Iterable (Either string) :=
  [Raise boom; Normal (Payload "A")].

(** *** What a consumer holds, what a source has left *)

(** Among the elements a consumer received: the [None] placeholders and
    the payloads. *)
Definition placeholders (vs : list (option Entity)) : nat :=
  length
    (List.filter (fun v => match v with None => true | Some _ => false end)
       vs).

Definition payloads (vs : list (option Entity)) : nat :=
  length
    (List.filter (fun v => match v with Some _ => true | None => false end)
       vs).

(** What a suspended frame still holds of [self._iter()]. *)
Definition source_of (g : Frame) : Iterable (Either Entity) :=
  match g with
  | Created it => it
  | AtYieldNone _ it => it
  | AtYieldRight it => it
  | Closed => []
  end.

(** The items an iterable gives before its first raising pull, and the
    iterable from that pull on. *)
Fixpoint items_before {T : Type} (it : Iterable T) : list T :=
  match it with
  | Normal x :: rest => x :: items_before rest
  | _ => []
  end.

Fixpoint from_first_raise {T : Type} (it : Iterable T) : Iterable T :=
  match it with
  | Normal _ :: rest => from_first_raise rest
  | _ => it
  end.

(* ------------------------------------------------------------------ *)
(** ** Properties of the status recorder                                *)
(* ------------------------------------------------------------------ *)

Lemma Status_le_refl (a : Status.t) : Status.le a a.
Proof. split; lia. Qed.

Lemma Status_le_trans (a b c : Status.t) :
  Status.le a b -> Status.le b c -> Status.le a c.
Proof. intros [? ?] [? ?]; split; lia. Qed.

Lemma Status_le_failed (err : StackTraceError) (a : Status.t) :
  Status.le a (Status.failed err a).
Proof. split; simpl; lia. Qed.

Lemma Status_le_scanned {T : Type} (record : T) (a : Status.t) :
  Status.le a (Status.scanned record a).
Proof. split; simpl; lia. Qed.

Create HintDb recorder.
#[local] Hint Resolve Status_le_refl Status_le_failed Status_le_scanned
  : recorder.

Lemma exactly_one_cases {T : Type} (e : Either T) :
  exactly_one e = true ->
  (exists f, e = Failure f) \/ (exists x, e = Payload x).
Proof.
  destruct e as [[f|] [x|]]; cbv; intros H; try discriminate.
  - left; eauto.
  - right; eauto.
Qed.

(* ------------------------------------------------------------------ *)
(** ** ReturnStep.run                                                   *)
(* ------------------------------------------------------------------ *)

(** C1: when [_run] returns an envelope holding exactly one side,
    a payload [X] is returned by [run] with [successCount] one higher and
    [failureCount] and the failures untouched; a failure [F] makes [run]
    return [None] with [failureCount] one higher and [F] appended at the end
    of the failures. *)
Theorem ReturnStep_run_exactly_one (result : Either Entity) (s : Env) :
  exactly_one result = true ->
  let out := ReturnStep_run (Normal result) s in
  (forall X, models.right result = Some X ->
     out.1 = Normal (Some X) /\
     out.2.(status).(Status.successCount)
       = S s.(status).(Status.successCount) /\
     out.2.(status).(Status.failureCount) = s.(status).(Status.failureCount) /\
     out.2.(status).(Status.failures) = s.(status).(Status.failures)) /\
  (forall F, models.left result = Some F ->
     out.1 = Normal None /\
     out.2.(status).(Status.failureCount)
       = S s.(status).(Status.failureCount) /\
     out.2.(status).(Status.failures) = s.(status).(Status.failures) ++ [F] /\
     out.2.(status).(Status.successCount)
       = s.(status).(Status.successCount)).
Proof.
  intros H.
  destruct (exactly_one_cases result H) as [[f ->] | [x ->]]; simpl.
  - split; [intros X HX; discriminate HX|].
    intros F HF; injection HF as <-. repeat split.
  - split; [|intros F HF; discriminate HF].
    intros X HX; injection HX as <-. repeat split.
Qed.

(** C4: when [_run] raises [WorkflowFatalError], [run] raises that very
    exception object; the status recorder is the one from before the call.
    The only trace left is one error-level log line. *)
Theorem ReturnStep_run_fatal (err : PyExc) (s : Env) :
  err.(exc_class) = WorkflowFatalError ->
  let out := ReturnStep_run (Raise err) s in
  out.1 = Raise err /\
  out.2.(status) = s.(status) /\
  out.2.(logger) =
    s.(logger) ++
    [(ERROR, "Fatal error running step [" +:+ self_str +:+ "]: ["
               +:+ err.(exc_str) +:+ "]")].
Proof.
  intros H. unfold ReturnStep_run, try_except, bind, call; simpl.
  rewrite H. repeat split.
Qed.

(** C5, as the code has it: whatever [_run] does, an exception leaves
    [run] only if [_run] raised it and the [except Exception] clause does
    not catch it.  That is a [WorkflowFatalError], or an exception outside
    [Exception] such as [KeyboardInterrupt], which neither clause matches
    and which leaves [run] as it came, unlogged and unrecorded.  When
    [_run] raises any other exception derived from [Exception], [run]
    returns [None] after appending exactly one failure named "Unhandled"
    that carries the formatted traceback, with a warning logged. *)
Theorem ReturnStep_run_raises_only_uncaught
  (_run : Completion (Either Entity)) (s : Env) :
  (forall e, (ReturnStep_run _run s).1 = Raise e ->
     e.(exc_class) <> Exception /\ _run = Raise e) /\
  (forall exc, _run = Raise exc -> exc.(exc_class) = Exception ->
     ReturnStep_run _run s =
       (Normal None,
        {| status :=
             {| Status.successCount := s.(status).(Status.successCount);
                Status.failureCount := S s.(status).(Status.failureCount);
                Status.failures :=
                  s.(status).(Status.failures) ++
                  [{| models.name := "Unhandled";
                      models.error := unhandled_message exc;
                      models.stack_trace := exc.(exc_traceback) |}] |};
           logger := s.(logger) ++ [(WARNING, unhandled_message exc)] |})) /\
  (forall exc, _run = Raise exc -> exc.(exc_class) = BaseException ->
     ReturnStep_run _run s = (Raise exc, s)).
Proof.
  split; [|split].
  - intros e. destruct _run as [[[l|] [r|]] | e0]; simpl; try discriminate.
    unfold ReturnStep_run, try_except, bind, call; simpl.
    destruct (exc_class e0) eqn:Hc; simpl; try discriminate.
    + intros [= <-]. rewrite Hc. split; [discriminate|reflexivity].
    + intros [= <-]. rewrite Hc. split; [discriminate|reflexivity].
  - intros exc -> Hc. unfold ReturnStep_run, try_except, bind, call; simpl.
    rewrite Hc. reflexivity.
  - intros exc -> Hc. unfold ReturnStep_run, try_except, bind, call; simpl.
    rewrite Hc. reflexivity.
Qed.

(** C9: when [_run] returns an envelope with both sides absent, [run]
    returns [None] and leaves the recorder (and the log) exactly as they
    were. *)
Theorem ReturnStep_run_neither (result : Either Entity) (s : Env) :
  models.left result = None ->
  models.right result = None ->
  ReturnStep_run (Normal result) s = (Normal None, s).
Proof.
  intros Hl Hr. unfold ReturnStep_run, try_except, bind, call; simpl.
  rewrite Hl, Hr. reflexivity.
Qed.

(* ------------------------------------------------------------------ *)
(** ** StageStep.run                                                    *)
(* ------------------------------------------------------------------ *)

Lemma count_exactly_one {T : Type} (envs : list (Either T)) :
  forallb exactly_one envs = true ->
  count_Payload envs = length envs - count_Failure envs /\
  count_Failure envs <= length envs.
Proof.
  unfold count_Payload, count_Failure.
  induction envs as [|e envs IH]; simpl; [intros _; split; lia|].
  intros [He Hr]%andb_prop. specialize (IH Hr) as [IH1 IH2].
  destruct (exactly_one_cases e He) as [[f ->] | [x ->]]; simpl; lia.
Qed.

(** The loop body never raises. *)
Lemma StageStep_body_total {T : Type} (e : Either T) (s : Env) :
  exists s', StageStep_body e s = (Normal tt, s') /\
    s'.(logger) = s.(logger) /\
    s'.(status).(Status.failureCount) =
      s.(status).(Status.failureCount) + (if is_Failure e then 1 else 0) /\
    s'.(status).(Status.successCount) =
      s.(status).(Status.successCount) + (if is_Payload e then 1 else 0) /\
    s'.(status).(Status.failures) =
      s.(status).(Status.failures) ++ option_list (models.left e).
Proof.
  destruct e as [[f|] [x|]]; eexists; (split; [reflexivity|]); simpl;
    rewrite ?app_nil_r; repeat split; lia.
Qed.

(** Draining a sequence none of whose pulls raises. *)
Lemma for_in_items {T : Type} (envs : list (Either T)) (s : Env) :
  exists s', for_in (map Normal envs) StageStep_body s = (Normal tt, s') /\
    s'.(logger) = s.(logger) /\
    s'.(status).(Status.failureCount) =
      s.(status).(Status.failureCount) + count_Failure envs /\
    s'.(status).(Status.successCount) =
      s.(status).(Status.successCount) + count_Payload envs /\
    s'.(status).(Status.failures) =
      s.(status).(Status.failures) ++ omap models.left envs.
Proof.
  unfold count_Failure, count_Payload.
  revert s; induction envs as [|e envs IH]; intros s; simpl.
  - exists s. rewrite app_nil_r. repeat split; lia.
  - destruct (StageStep_body_total e s) as (s1 & E1 & L1 & F1 & S1 & A1).
    destruct (IH s1) as (s2 & E2 & L2 & F2 & S2 & A2).
    exists s2. unfold bind. rewrite E1, E2.
    split; [reflexivity|]. rewrite L2, F2, S2, A2, L1, F1, S1, A1.
    repeat split.
    + destruct (is_Failure e); simpl; lia.
    + destruct (is_Payload e); simpl; lia.
    + rewrite <- app_assoc. f_equal.
      unfold is_Failure. destruct (models.left e); reflexivity.
Qed.

(** After a prefix of items, the loop goes on from where the prefix left
    the environment. *)
Lemma for_in_app_items {T : Type} (p : list (Either T))
  (q : Iterable (Either T)) (s : Env) :
  for_in (map Normal p ++ q) StageStep_body s
  = for_in q StageStep_body (for_in (map Normal p) StageStep_body s).2.
Proof.
  revert s; induction p as [|e p IH]; intros s; simpl; [reflexivity|].
  unfold bind. destruct (StageStep_body_total e s) as (s1 & -> & _).
  apply IH.
Qed.

Lemma for_in_le {T : Type} (it : Iterable (Either T)) (s : Env) :
  Status.le s.(status) (for_in it (@StageStep_body T) s).2.(status).
Proof.
  revert s; induction it as [|[e|x] it IH]; intros s; simpl;
    auto with recorder.
  unfold bind. destruct (StageStep_body_total e s) as (s1 & -> & _ & F & S & _).
  eapply Status_le_trans; [|apply IH]. split; lia.
Qed.

Lemma StageStep_run_le (it : Iterable (Either string)) (s : Env) :
  Status.le s.(status) (StageStep_run it s).2.(status).
Proof.
  unfold StageStep_run, try_except.
  pose proof (for_in_le it s) as H.
  destruct (for_in it StageStep_body s) as [[[]|e] s1]; simpl in *; [exact H|].
  eapply Status_le_trans; [exact H|].
  destruct (exc_class e); simpl; auto with recorder.
Qed.

(** C6: a stage whose [_run] yields [n] envelopes, each holding exactly one
    side, [k] of them failures, completes without raising and returns
    [None]; it has added [k] to [failureCount] and [n - k] to
    [successCount], so on the step's fresh recorder the counts are [k] and
    [n - k]. *)
Theorem StageStep_run_counts (envs : list (Either string)) (s : Env) :
  forallb exactly_one envs = true ->
  let n := length envs in
  let k := count_Failure envs in
  let out := StageStep_run (map Normal envs) s in
  out.1 = Normal tt /\
  out.2.(status).(Status.failureCount)
    = s.(status).(Status.failureCount) + k /\
  out.2.(status).(Status.successCount)
    = s.(status).(Status.successCount) + (n - k) /\
  (s.(status) = Status.init ->
     out.2.(status).(Status.failureCount) = k /\
     out.2.(status).(Status.successCount) = n - k).
Proof.
  intros H n k out. subst n k out.
  destruct (count_exactly_one envs H) as [Hp _].
  destruct (for_in_items envs s) as (s' & E & _ & F & S & _).
  unfold StageStep_run, try_except. rewrite E. simpl.
  rewrite F, S, Hp. do 3 (split; [reflexivity|]).
  intros ->; simpl; split; lia.
Qed.

(* ------------------------------------------------------------------ *)
(** ** IterStep.run                                                     *)
(* ------------------------------------------------------------------ *)

Lemma recorded_nil {T : Type} (s : Env) : recorded (@nil (Either T)) s = s.
Proof.
  destruct s as [[sc fc fs] lg]. unfold recorded, count_Payload, count_Failure.
  simpl. rewrite app_nil_r, !Nat.add_0_r. reflexivity.
Qed.

Lemma recorded_cons {T : Type} (e : Either T) (envs : list (Either T))
  (s : Env) :
  recorded (e :: envs) s = recorded envs (book e s).
Proof.
  destruct s as [[sc fc fs] lg], e as [[l|] [r|]];
    unfold recorded, book, count_Payload, count_Failure; simpl;
    rewrite <- ?app_assoc; simpl; do 2 f_equal; lia.
Qed.

Lemma resumes_at_Created (it : Iterable (Either Entity)) :
  resumes_at (Created it) it.
Proof. intros s; reflexivity. Qed.

Lemma resumes_at_AtYieldRight (it : Iterable (Either Entity)) :
  resumes_at (AtYieldRight it) it.
Proof. intros s; reflexivity. Qed.

Lemma resumes_at_AtYieldNone (e : Either Entity)
  (it : Iterable (Either Entity)) :
  models.right e = None -> resumes_at (AtYieldNone e it) it.
Proof. intros H s; simpl. unfold test_right. rewrite H. reflexivity. Qed.

Lemma resumes_at_skip (g : Frame) (e : Either Entity)
  (it : Iterable (Either Entity)) :
  models.left e = None -> models.right e = None ->
  resumes_at g (Normal e :: it) -> resumes_at g it.
Proof.
  intros Hl Hr H s. rewrite H. simpl. unfold test_right.
  rewrite Hl, Hr. reflexivity.
Qed.

#[local] Hint Resolve resumes_at_Created resumes_at_AtYieldRight
  resumes_at_AtYieldNone : recorder.

(** Two frames that resume at the same place serve the same pulls. *)
Lemma pull_resumes_at (g : Frame) (it : Iterable (Either Entity))
  (m : nat) (s : Env) :
  resumes_at g it -> pull (S m) g s = pull (S m) (Created it) s.
Proof. intros H. simpl. rewrite H. reflexivity. Qed.

Lemma prepend_nil (r : list (option Entity) * Ending * Env) :
  prepend [] r = r.
Proof. destruct r as [[? ?] ?]; reflexivity. Qed.

Lemma prepend_prepend (a b : list (option Entity))
  (r : list (option Entity) * Ending * Env) :
  prepend a (prepend b r) = prepend (a ++ b) r.
Proof. unfold prepend; simpl. rewrite app_assoc. reflexivity. Qed.

(** A pull that is served by a [yield]. *)
Lemma pull_S_Yield (n : nat) (g g' : Frame) (s s' : Env) (v : option Entity) :
  next g s = (Yield v, g', s') ->
  pull (S n) g s = prepend [v] (pull n g' s').
Proof.
  intros H. simpl. rewrite H.
  destruct (pull n g' s') as [[? ?] ?]; reflexivity.
Qed.

(** Consuming a prefix of items in full: the consumer receives the
    emissions of every envelope of [pre], and then whatever the generator
    gives at the head of the rest of the source. *)
Lemma pull_prefix (pre : list (Either Entity))
  (it : Iterable (Either Entity)) (m : nat) :
  forall (g : Frame) (s : Env),
  resumes_at g (map Normal pre ++ it) ->
  pull (length (flat_map emissions pre) + S m) g s
  = prepend (flat_map emissions pre)
      (pull (S m) (Created it) (recorded pre s)).
Proof.
  induction pre as [|e pre IH]; intros g s Hg.
  - rewrite recorded_nil, prepend_nil. apply pull_resumes_at, Hg.
  - rewrite recorded_cons.
    set (rest := map Normal pre ++ it) in *.
    destruct e as [[l|] [r|]].
    + (* both sides: suspended twice *)
      set (e := {| models.left := Some l; models.right := Some r |}) in *.
      change (pull (S (S (length (flat_map emissions pre) + S m))) g s
              = prepend ([None; Some r] ++ flat_map emissions pre)
                  (pull (S m) (Created it)
                     (recorded pre (env_scanned r (env_failed l s))))).
      rewrite (pull_S_Yield _ g (AtYieldNone e rest) s (env_failed l s) None)
        by (rewrite Hg; reflexivity).
      rewrite (pull_S_Yield _ (AtYieldNone e rest) (AtYieldRight rest)
                 (env_failed l s) (env_scanned r (env_failed l s)) (Some r))
        by reflexivity.
      rewrite (IH (AtYieldRight rest)) by auto with recorder.
      rewrite !prepend_prepend. reflexivity.
    + (* failure only *)
      set (e := {| models.left := Some l; models.right := None |}) in *.
      change (pull (S (length (flat_map emissions pre) + S m)) g s
              = prepend ([None] ++ flat_map emissions pre)
                  (pull (S m) (Created it) (recorded pre (env_failed l s)))).
      rewrite (pull_S_Yield _ g (AtYieldNone e rest) s (env_failed l s) None)
        by (rewrite Hg; reflexivity).
      rewrite (IH (AtYieldNone e rest)) by (apply resumes_at_AtYieldNone;
        reflexivity).
      rewrite prepend_prepend. reflexivity.
    + (* payload only *)
      change (pull (S (length (flat_map emissions pre) + S m)) g s
              = prepend ([Some r] ++ flat_map emissions pre)
                  (pull (S m) (Created it) (recorded pre (env_scanned r s)))).
      rewrite (pull_S_Yield _ g (AtYieldRight rest) s (env_scanned r s)
                 (Some r)) by (rewrite Hg; reflexivity).
      rewrite (IH (AtYieldRight rest)) by auto with recorder.
      rewrite prepend_prepend. reflexivity.
    + (* neither side: the loop turns without suspending *)
      apply IH. eapply resumes_at_skip; [| |exact Hg]; reflexivity.
Qed.

Lemma pull_S_StopIteration (n : nat) (g g' : Frame) (s s' : Env) :
  next g s = (StopIteration, g', s') ->
  pull (S n) g s = ([], Exhausted, s').
Proof. intros H. simpl. rewrite H. reflexivity. Qed.

Lemma pull_S_Raised (n : nat) (g g' : Frame) (s s' : Env) (e : PyExc) :
  next g s = (Raised e, g', s') ->
  pull (S n) g s = ([], Aborted e, s').
Proof. intros H. simpl. rewrite H. reflexivity. Qed.

(** On envelopes holding exactly one side there is one emission each. *)
Lemma emissions_exactly_one (envs : list (Either Entity)) :
  forallb exactly_one envs = true ->
  flat_map emissions envs = map models.right envs.
Proof.
  induction envs as [|e envs IH]; simpl; [reflexivity|].
  intros [He Hr]%andb_prop. rewrite (IH Hr).
  destruct (exactly_one_cases e He) as [[f ->] | [x ->]]; reflexivity.
Qed.

(** A consumer that stops after [k] pulls has received the first [k]
    payload sides and left the recorder with exactly the first [k]
    envelopes booked. *)
Lemma pull_items (envs : list (Either Entity)) :
  forall (k : nat) (g : Frame) (s : Env),
  resumes_at g (map Normal envs) ->
  forallb exactly_one envs = true ->
  k <= length envs ->
  exists g',
    pull k g s = (map models.right (take k envs), Suspended g',
                  recorded (take k envs) s) /\
    resumes_at g' (map Normal (drop k envs)).
Proof.
  induction envs as [|e envs IH]; intros k g s Hg Hx Hk.
  - simpl in Hk. assert (k = 0) as -> by lia.
    exists g. cbn [take drop map]. rewrite recorded_nil.
    split; [reflexivity|exact Hg].
  - destruct k as [|k].
    + exists g. cbn [take drop map]. rewrite recorded_nil.
      split; [reflexivity|exact Hg].
    + simpl in Hx. apply andb_prop in Hx as [He Hr].
      simpl in Hk. assert (k <= length envs) as Hk' by lia.
      cbn [take drop map]. rewrite recorded_cons.
      destruct (exactly_one_cases e He) as [[f ->] | [x ->]].
      * destruct (IH k (AtYieldNone (Failure f) (map Normal envs))
                    (env_failed f s)) as (g' & E & Hg'); auto.
        { apply resumes_at_AtYieldNone. reflexivity. }
        exists g'. split; [|exact Hg'].
        rewrite (pull_S_Yield k g (AtYieldNone (Failure f) (map Normal envs))
                   s (env_failed f s) None) by (rewrite Hg; reflexivity).
        rewrite E. reflexivity.
      * destruct (IH k (AtYieldRight (map Normal envs))
                    (env_scanned x s)) as (g' & E & Hg'); auto with recorder.
        exists g'. split; [|exact Hg'].
        rewrite (pull_S_Yield k g (AtYieldRight (map Normal envs))
                   s (env_scanned x s) (Some x)) by (rewrite Hg; reflexivity).
        rewrite E. reflexivity.
Qed.

Lemma loop_le (it : Iterable (Either Entity)) (s : Env) :
  Status.le s.(status) (loop it s).2.(status).
Proof.
  revert s; induction it as [|[e|x] it IH]; intros s; simpl;
    auto with recorder.
  - destruct (models.left e) as [l|]; simpl; auto with recorder.
    unfold test_right. destruct (models.right e); simpl; auto with recorder.
  - unfold IterStep_except. destruct (exc_class x); simpl; auto with recorder.
Qed.

Lemma next_le (g : Frame) (s : Env) :
  Status.le s.(status) (next g s).2.(status).
Proof.
  destruct g; simpl; auto using loop_le with recorder.
  unfold test_right. destruct (models.right result); simpl;
    auto using loop_le with recorder.
Qed.

Lemma pull_S_le (n : nat) :
  forall (g : Frame) (s : Env),
  Status.le (pull n g s).2.(status) (pull (S n) g s).2.(status).
Proof.
  induction n as [|n IH]; intros g s.
  - pose proof (next_le g s) as H. simpl.
    destruct (next g s) as [[[v| |e] g'] s']; exact H.
  - destruct (next g s) as [[[v| |e] g'] s'] eqn:E.
    + rewrite (pull_S_Yield (S n) g g' s s' v E), (pull_S_Yield n g g' s s' v E).
      apply IH.
    + rewrite !(pull_S_StopIteration _ g g' s s' E). apply Status_le_refl.
    + rewrite !(pull_S_Raised _ g g' s s' e E). apply Status_le_refl.
Qed.

Lemma pull_le (n : nat) (g : Frame) (s : Env) :
  Status.le s.(status) (pull n g s).2.(status).
Proof.
  induction n as [|n IH]; [apply Status_le_refl|].
  eapply Status_le_trans; [exact IH|apply pull_S_le].
Qed.

(** C2: over a source of [n] envelopes, each holding exactly one side, the
    generator gives exactly [n] elements and then stops; element [i] is the
    payload side of envelope [i], which is empty exactly when that envelope
    is a failure; and a consumer that has pulled only [k] elements has the
    first [k] of them while the recorder holds the bookkeeping of exactly
    the first [k] envelopes, in source order: element [i] is booked before
    element [i+1] is produced. *)
Theorem IterStep_run_one_per_envelope
  (envs : list (Either Entity)) (s : Env) :
  forallb exactly_one envs = true ->
  let gen := IterStep_run (map Normal envs) in
  let out := map models.right envs in
  pull (S (length envs)) gen s = (out, Exhausted, recorded envs s) /\
  length out = length envs /\
  (forall i e, envs !! i = Some e ->
     out !! i = Some (models.right e) /\
     (models.right e = None <-> is_Failure e = true)) /\
  (forall k, k <= length envs ->
     exists g,
       pull k gen s = (take k out, Suspended g, recorded (take k envs) s)).
Proof.
  intros Hx gen out. subst gen out. split; [|split; [|split]].
  - pose proof (pull_prefix envs [] 0 (Created (map Normal envs ++ [])) s
                  (resumes_at_Created _)) as H.
    rewrite app_nil_r, (emissions_exactly_one envs Hx), length_map in H.
    rewrite Nat.add_1_r in H. unfold IterStep_run. rewrite H.
    unfold prepend; simpl. rewrite app_nil_r. reflexivity.
  - apply length_map.
  - intros i e Hi. split.
    + change (map models.right envs) with (models.right <$> envs).
      rewrite list_lookup_fmap, Hi. reflexivity.
    + assert (exactly_one e = true) as He.
      { rewrite forallb_forall in Hx. apply Hx.
        apply list_elem_of_In, list_elem_of_lookup. eauto. }
      destruct (exactly_one_cases e He) as [[f ->] | [x ->]]; cbv;
        split; congruence.
  - intros k Hk.
    destruct (pull_items envs k (Created (map Normal envs)) s) as (g & E & _);
      auto with recorder.
    exists g. unfold IterStep_run. rewrite E, firstn_map. reflexivity.
Qed.

(** C3, as the code has it: when a pull on the source raises an exception
    other than [WorkflowFatalError], after the envelopes [pre], the consumer
    has received the emissions of [pre] and next receives [StopIteration]; a
    warning is logged and one failure named "Unhandled" is appended to what
    [pre] recorded.  This does not depend on [rest], what the source would
    still have produced, nor on how often the consumer pulls again. *)
Theorem IterStep_run_unexpected_ends
  (pre : list (Either Entity)) (exc : PyExc)
  (rest : Iterable (Either Entity)) (m : nat) (s : Env) :
  exc.(exc_class) = Exception ->
  pull (length (flat_map emissions pre) + S m)
    (IterStep_run (map Normal pre ++ Raise exc :: rest)) s
  = (flat_map emissions pre, Exhausted,
     after_unhandled (encountered_message exc) exc (recorded pre s)).
Proof.
  intros Hc. unfold IterStep_run.
  rewrite (pull_prefix pre (Raise exc :: rest)) by apply resumes_at_Created.
  unfold prepend. simpl. unfold IterStep_except. rewrite Hc. simpl.
  rewrite app_nil_r. reflexivity.
Qed.

(** C10: an envelope carrying both a failure and a payload is served by
    two pulls, [None] and then the payload, and both counters go up by one;
    a source of that single envelope therefore gives two elements. *)
Theorem IterStep_run_both_sides
  (F : StackTraceError) (X : Entity) (it : Iterable (Either Entity))
  (s : Env) :
  let e := {| models.left := Some F; models.right := Some X |} in
  let s' :=
    {| status :=
         {| Status.successCount := S s.(status).(Status.successCount);
            Status.failureCount := S s.(status).(Status.failureCount);
            Status.failures := s.(status).(Status.failures) ++ [F] |};
       logger := s.(logger) |} in
  pull 1 (IterStep_run (Normal e :: it)) s
    = ([None], Suspended (AtYieldNone e it), env_failed F s) /\
  pull 2 (IterStep_run (Normal e :: it)) s
    = ([None; Some X], Suspended (AtYieldRight it), s') /\
  pull 3 (IterStep_run [Normal e]) s = ([None; Some X], Exhausted, s').
Proof. repeat split. Qed.

(* ------------------------------------------------------------------ *)
(** ** BulkStep.run                                                     *)
(* ------------------------------------------------------------------ *)

Lemma bulk_run_app (calls1 calls2 : list StatusCall) (fin : Completion unit)
  (s : Env) :
  bulk_run (calls1 ++ calls2) fin s
  = bulk_run calls2 fin (bulk_run calls1 (Normal tt) s).2.
Proof.
  revert s; induction calls1 as [|c calls1 IH]; intros s; simpl;
    [reflexivity|].
  unfold bind. destruct c; simpl; apply IH.
Qed.

Lemma bulk_run_le (calls : list StatusCall) (fin : Completion unit) (s : Env) :
  Status.le s.(status) (bulk_run calls fin s).2.(status).
Proof.
  revert s; induction calls as [|c calls IH]; intros s; simpl;
    auto with recorder.
  unfold bind. destruct c; simpl;
    (eapply Status_le_trans; [|apply IH]); simpl; auto with recorder.
Qed.

(** C7: an exception raised inside a bulk step's [run] reaches the caller
    as it is, and the environment is the one [run] itself left: no wrapper
    stands between the two to catch, convert or record it. *)
Theorem BulkStep_run_propagates (run : Exec unit) (s s' : Env) (e : PyExc) :
  run s = (Raise e, s') ->
  BulkStep_run run s = (Raise e, s').
Proof. intros H. exact H. Qed.

(* ------------------------------------------------------------------ *)
(** ** Monotone counters                                                *)
(* ------------------------------------------------------------------ *)

Lemma ReturnStep_run_le (_run : Completion (Either Entity)) (s : Env) :
  Status.le s.(status) (ReturnStep_run _run s).2.(status).
Proof.
  destruct _run as [[[l|] [r|]] | e]; simpl; auto with recorder.
  unfold ReturnStep_run, try_except, bind, call; simpl.
  destruct (exc_class e); simpl; auto with recorder.
Qed.

Lemma StageStep_run_app_items (p : list (Either string))
  (q : Iterable (Either string)) (s : Env) :
  StageStep_run (map Normal p ++ q) s
  = StageStep_run q (for_in (map Normal p) StageStep_body s).2.
Proof.
  unfold StageStep_run, try_except. rewrite for_in_app_items. reflexivity.
Qed.

(** C8: in every variant the two counters only grow.  A [ReturnStep] run
    ends with counts at least those it started with, however [_run]
    completes.  In a [StageStep] run the counts after any prefix of the
    drained sequence lie between the initial and the final ones, however
    the rest of the sequence ends.  Every resumption of an [IterStep]
    generator, and so every further pull of its consumer, leaves counts at
    least as large.  A bulk [run] that keeps its books through the
    recorder's operations has the same property at each of its calls. *)
Theorem counts_never_decrease :
  (forall (_run : Completion (Either Entity)) (s : Env),
     Status.le s.(status) (ReturnStep_run _run s).2.(status)) /\
  (forall (p : list (Either string)) (q : Iterable (Either string)) (s : Env),
     let mid := (for_in (map Normal p) StageStep_body s).2 in
     Status.le s.(status) mid.(status) /\
     Status.le mid.(status) (StageStep_run (map Normal p ++ q) s).2.(status)) /\
  (forall (g : Frame) (s : Env),
     Status.le s.(status) (next g s).2.(status)) /\
  (forall (n : nat) (g : Frame) (s : Env),
     Status.le s.(status) (pull n g s).2.(status) /\
     Status.le (pull n g s).2.(status) (pull (S n) g s).2.(status)) /\
  (forall (calls1 calls2 : list StatusCall) (fin : Completion unit) (s : Env),
     let mid := (bulk_run calls1 (Normal tt) s).2 in
     Status.le s.(status) mid.(status) /\
     Status.le mid.(status)
       (BulkStep_run (bulk_run (calls1 ++ calls2) fin) s).2.(status)).
Proof.
  split; [exact ReturnStep_run_le|].
  split.
  { intros p q s mid. subst mid. split; [apply for_in_le|].
    rewrite StageStep_run_app_items. apply StageStep_run_le. }
  split; [exact next_le|].
  split.
  { intros n g s. split; [apply pull_le|apply pull_S_le]. }
  intros calls1 calls2 fin s mid. subst mid. split; [apply bulk_run_le|].
  unfold BulkStep_run. rewrite bulk_run_app. apply bulk_run_le.
Qed.

(* ------------------------------------------------------------------ *)
(** ** ReturnStep.run on any completion of the unit of work             *)
(* ------------------------------------------------------------------ *)

(** X1: the failure side is tested first and returns at once: an envelope
    with a failure side makes [run] return [None] and book that failure
    only, whether or not it also carries a payload; the payload is neither
    returned nor counted. *)
Theorem ReturnStep_run_failure_first
  (result : Either Entity) (F : StackTraceError) (s : Env) :
  models.left result = Some F ->
  ReturnStep_run (Normal result) s = (Normal None, env_failed F s).
Proof.
  intros H. unfold ReturnStep_run, try_except, bind, call; simpl.
  rewrite H. reflexivity.
Qed.

(** X2: [run] hands a payload to its caller exactly when [_run] returned
    an envelope without a failure side whose payload side is that payload;
    and whenever it does, the payload has been counted as one success and
    nothing else has changed. *)
Theorem ReturnStep_run_returns_payload_iff
  (_run : Completion (Either Entity)) (X : Entity) (s : Env) :
  ((ReturnStep_run _run s).1 = Normal (Some X) <->
   exists result,
     _run = Normal result /\
     models.left result = None /\
     models.right result = Some X) /\
  ((ReturnStep_run _run s).1 = Normal (Some X) ->
   (ReturnStep_run _run s).2 = env_scanned X s).
Proof.
  split; [split|].
  - destruct _run as [[[l|] [r|]] | e]; simpl; try discriminate.
    + intros [= <-]. eexists; repeat split.
    + unfold ReturnStep_run, try_except, bind, call; simpl.
      destruct (exc_class e); simpl; discriminate.
  - intros ([l r] & -> & Hl & Hr). simpl in Hl, Hr. subst l r. reflexivity.
  - destruct _run as [[[l|] [r|]] | e]; simpl; try discriminate.
    + intros [= <-]. reflexivity.
    + unfold ReturnStep_run, try_except, bind, call; simpl.
      destruct (exc_class e); simpl; discriminate.
Qed.

(** X3: one call of [run] books at most one outcome, whatever [_run]
    does: the two counters together grow by at most one and the failures by
    at most one record. *)
Theorem ReturnStep_run_books_at_most_one
  (_run : Completion (Either Entity)) (s : Env) :
  let s' := (ReturnStep_run _run s).2 in
  s'.(status).(Status.successCount) + s'.(status).(Status.failureCount)
    <= S (s.(status).(Status.successCount)
          + s.(status).(Status.failureCount)) /\
  length s'.(status).(Status.failures)
    <= S (length s.(status).(Status.failures)).
Proof.
  destruct _run as [[[l|] [r|]] | e]; simpl;
    rewrite ?length_app; simpl; try lia.
  unfold ReturnStep_run, try_except, bind, call; simpl.
  destruct (exc_class e); simpl; rewrite ?length_app; simpl; lia.
Qed.

(* ------------------------------------------------------------------ *)
(** ** StageStep.run on any source                                      *)
(* ------------------------------------------------------------------ *)

Lemma StageStep_body_book {T : Type} (e : Either T) (s : Env) :
  StageStep_body e s = (Normal tt, book e s).
Proof. destruct e as [[l|] [r|]]; reflexivity. Qed.

Lemma for_in_recorded {T : Type} (envs : list (Either T)) (s : Env) :
  for_in (map Normal envs) StageStep_body s = (Normal tt, recorded envs s).
Proof.
  revert s; induction envs as [|e envs IH]; intros s; simpl.
  - rewrite recorded_nil. reflexivity.
  - unfold bind. rewrite StageStep_body_book, IH, recorded_cons. reflexivity.
Qed.

Lemma for_in_Raise {T : Type} (it : Iterable (Either T)) (s s' : Env)
  (e : PyExc) :
  for_in it (@StageStep_body T) s = (Raise e, s') -> In (Raise e) it.
Proof.
  revert s; induction it as [|[x|e0] it IH]; intros s; simpl.
  - discriminate.
  - unfold bind. rewrite StageStep_body_book. intros H. right. eauto.
  - intros [= <- _]. left. reflexivity.
Qed.

Lemma split_at_first_raise {T : Type} (it : Iterable T) :
  it = map Normal (items_before it) ++ from_first_raise it /\
  (from_first_raise it = [] \/
   exists e rest, from_first_raise it = Raise e :: rest).
Proof.
  induction it as [|[x|e] it [IH1 IH2]]; simpl.
  - split; [reflexivity|left; reflexivity].
  - split; [f_equal; exact IH1|exact IH2].
  - split; [reflexivity|right; eauto].
Qed.

(** X4: draining a source that never raises books every envelope, in
    source order, whatever sides it carries: an envelope with both sides
    counts as a failure and as a success, one with neither side counts as
    nothing; [run] returns [None] and logs nothing. *)
Theorem StageStep_run_items (envs : list (Either string)) (s : Env) :
  StageStep_run (map Normal envs) s
  = (Normal tt,
     {| status :=
          {| Status.successCount :=
               s.(status).(Status.successCount) + count_Payload envs;
             Status.failureCount :=
               s.(status).(Status.failureCount) + count_Failure envs;
             Status.failures :=
               s.(status).(Status.failures) ++ omap models.left envs |};
        logger := s.(logger) |}).
Proof.
  unfold StageStep_run, try_except. rewrite for_in_recorded. reflexivity.
Qed.

(** X5: when a pull on the source raises [WorkflowFatalError] after the
    envelopes [pre], [run] raises that same exception; the recorder keeps
    what [pre] booked and gets no failure record for the abort, one error
    line is logged, and what the source had left is never pulled. *)
Theorem StageStep_run_fatal
  (pre : list (Either string)) (err : PyExc)
  (rest : Iterable (Either string)) (s : Env) :
  err.(exc_class) = WorkflowFatalError ->
  StageStep_run (map Normal pre ++ Raise err :: rest) s
  = (Raise err,
     {| status := (recorded pre s).(status);
        logger :=
          s.(logger) ++
          [(ERROR, "Fatal error running step [" +:+ self_str +:+ "]: ["
                     +:+ err.(exc_str) +:+ "]")] |}).
Proof.
  intros Hc. rewrite StageStep_run_app_items, for_in_recorded.
  unfold StageStep_run, try_except; simpl. rewrite Hc. reflexivity.
Qed.


(** X7: over any source, an exception leaves [StageStep.run] only if a
    pull on the source raised it and the [except Exception] clause does not
    catch it: a [WorkflowFatalError], or an exception outside [Exception]
    such as [KeyboardInterrupt].  The latter, raised after the envelopes
    [pre], leaves [run] as it came: the recorder holds what [pre] booked,
    nothing is logged and nothing is recorded for it. *)
Theorem StageStep_run_raises_only_uncaught
  (it : Iterable (Either string)) (s : Env) :
  (forall e, (StageStep_run it s).1 = Raise e ->
     e.(exc_class) <> Exception /\ In (Raise e) it) /\
  (forall pre exc rest,
     it = map Normal pre ++ Raise exc :: rest ->
     exc.(exc_class) = BaseException ->
     StageStep_run it s = (Raise exc, recorded pre s)).
Proof.
  split.
  - intros e. unfold StageStep_run, try_except.
    destruct (for_in it StageStep_body s) as [[[]|e0] s1] eqn:E; simpl;
      [discriminate|].
    apply for_in_Raise in E.
    destruct (exc_class e0) eqn:Hc; simpl; try discriminate.
    + intros [= <-]. rewrite Hc. split; [discriminate|exact E].
    + intros [= <-]. rewrite Hc. split; [discriminate|exact E].
  - intros pre exc rest -> Hc.
    rewrite StageStep_run_app_items, for_in_recorded.
    unfold StageStep_run, try_except; simpl. rewrite Hc. reflexivity.
Qed.

(* ------------------------------------------------------------------ *)
(** ** IterStep.run on any source                                       *)
(* ------------------------------------------------------------------ *)

(** What one run from the head of the loop does, by what it gives. *)
Lemma loop_served (it : Iterable (Either Entity)) :
  forall s : Env,
  match loop it s with
  | (Yield None, g', s') =>
      s'.(status).(Status.successCount) = s.(status).(Status.successCount) /\
      s'.(status).(Status.failureCount)
        = S s.(status).(Status.failureCount) /\
      s'.(logger) = s.(logger) /\
      incl (source_of g') it
  | (Yield (Some _), g', s') =>
      s'.(status).(Status.successCount)
        = S s.(status).(Status.successCount) /\
      s'.(status).(Status.failureCount) = s.(status).(Status.failureCount) /\
      s'.(logger) = s.(logger) /\
      incl (source_of g') it
  | (StopIteration, g', s') =>
      g' = Closed /\
      s'.(status).(Status.successCount) = s.(status).(Status.successCount) /\
      s.(status).(Status.failureCount) <= s'.(status).(Status.failureCount) /\
      s'.(status).(Status.failureCount) <= S s.(status).(Status.failureCount)
  | (Raised e, g', s') =>
      g' = Closed /\
      s'.(status) = s.(status) /\
      e.(exc_class) <> Exception /\
      In (Raise e) it
  end.
Proof.
  induction it as [|[e|x] it IH]; intros s; simpl.
  - repeat split; lia.
  - destruct (models.left e) as [l|]; simpl.
    + repeat split. apply incl_tl, incl_refl.
    + unfold test_right. destruct (models.right e) as [r|]; simpl.
      * repeat split. apply incl_tl, incl_refl.
      * specialize (IH s).
        destruct (loop it s) as [[[[v|]| |e'] g'] s'];
          intuition auto using incl_tl.
  - unfold IterStep_except. destruct (exc_class x) eqn:Hc; simpl.
    + repeat split; auto. rewrite Hc. discriminate.
    + repeat split; lia.
    + repeat split; auto. rewrite Hc. discriminate.
Qed.

Lemma next_served (g : Frame) (s : Env) :
  match next g s with
  | (Yield None, g', s') =>
      s'.(status).(Status.successCount) = s.(status).(Status.successCount) /\
      s'.(status).(Status.failureCount)
        = S s.(status).(Status.failureCount) /\
      s'.(logger) = s.(logger) /\
      incl (source_of g') (source_of g)
  | (Yield (Some _), g', s') =>
      s'.(status).(Status.successCount)
        = S s.(status).(Status.successCount) /\
      s'.(status).(Status.failureCount) = s.(status).(Status.failureCount) /\
      s'.(logger) = s.(logger) /\
      incl (source_of g') (source_of g)
  | (StopIteration, g', s') =>
      g' = Closed /\
      s'.(status).(Status.successCount) = s.(status).(Status.successCount) /\
      s.(status).(Status.failureCount) <= s'.(status).(Status.failureCount) /\
      s'.(status).(Status.failureCount) <= S s.(status).(Status.failureCount)
  | (Raised e, g', s') =>
      g' = Closed /\
      s'.(status) = s.(status) /\
      e.(exc_class) <> Exception /\
      In (Raise e) (source_of g)
  end.
Proof.
  destruct g as [it|result it|it|]; simpl.
  - apply loop_served.
  - unfold test_right. destruct (models.right result) as [r|]; simpl.
    + repeat split. apply incl_refl.
    + apply loop_served.
  - apply loop_served.
  - repeat split; lia.
Qed.

Lemma pull_books (n : nat) :
  forall (g : Frame) (s : Env),
  let r := pull n g s in
  r.2.(status).(Status.successCount)
    = s.(status).(Status.successCount) + payloads r.1.1 /\
  s.(status).(Status.failureCount) + placeholders r.1.1
    <= r.2.(status).(Status.failureCount) /\
  r.2.(status).(Status.failureCount)
    <= S (s.(status).(Status.failureCount) + placeholders r.1.1) /\
  (forall g', r.1.2 = Suspended g' ->
     length r.1.1 = n /\
     r.2.(status).(Status.failureCount)
       = s.(status).(Status.failureCount) + placeholders r.1.1 /\
     r.2.(logger) = s.(logger)).
Proof.
  unfold payloads, placeholders.
  induction n as [|n IH]; intros g s.
  - simpl. repeat split; lia.
  - pose proof (next_served g s) as H.
    destruct (next g s) as [[[[x|]| |e] g1] s1] eqn:E.
    + rewrite (pull_S_Yield n g g1 s s1 _ E).
      specialize (IH g1 s1). cbv zeta in IH. unfold prepend. simpl.
      destruct H as (H1 & H2 & H3 & _).
      destruct IH as (I1 & I2 & I3 & I4).
      repeat split; try lia.
      all: destruct (I4 g' H) as (J1 & J2 & J3); try lia; congruence.
    + rewrite (pull_S_Yield n g g1 s s1 _ E).
      specialize (IH g1 s1). cbv zeta in IH. unfold prepend. simpl.
      destruct H as (H1 & H2 & H3 & _).
      destruct IH as (I1 & I2 & I3 & I4).
      repeat split; try lia.
      all: destruct (I4 g' H) as (J1 & J2 & J3); try lia; congruence.
    + rewrite (pull_S_StopIteration n g g1 s s1 E). simpl.
      destruct H as (_ & H1 & H2 & H3). repeat split; try lia; discriminate.
    + rewrite (pull_S_Raised n g g1 s s1 e E). simpl.
      destruct H as (_ & H1 & _). rewrite H1.
      repeat split; try lia; discriminate.
Qed.

Lemma pull_Aborted (n : nat) :
  forall (g : Frame) (s : Env) (e : PyExc),
  (pull n g s).1.2 = Aborted e ->
  e.(exc_class) <> Exception /\ In (Raise e) (source_of g).
Proof.
  induction n as [|n IH]; intros g s e; [discriminate|].
  pose proof (next_served g s) as H.
  destruct (next g s) as [[[v| |e'] g1] s1] eqn:E.
  - rewrite (pull_S_Yield n g g1 s s1 _ E). unfold prepend; simpl.
    intros Ha. destruct (IH g1 s1 e Ha) as [Hc Hin]. split; [exact Hc|].
    destruct v; apply H, Hin.
  - rewrite (pull_S_StopIteration n g g1 s s1 E). discriminate.
  - rewrite (pull_S_Raised n g g1 s s1 e' E). simpl. intros [= <-].
    destruct H as (_ & _ & Hc & Hin). auto.
Qed.

(** X8: consumed to the end, a source that never raises gives, envelope
    by envelope, [None] for a failure side and then the payload for a
    payload side: as many elements as there are sides, so none at all for an
    envelope with neither.  The recorder then holds every side booked, in
    source order, and nothing is logged. *)
Theorem IterStep_run_items
  (envs : list (Either Entity)) (m : nat) (s : Env) :
  pull (length (flat_map emissions envs) + S m)
    (IterStep_run (map Normal envs)) s
  = (flat_map emissions envs, Exhausted, recorded envs s) /\
  length (flat_map emissions envs) = count_Failure envs + count_Payload envs.
Proof.
  split.
  - pose proof (pull_prefix envs [] m (Created (map Normal envs ++ [])) s
                  (resumes_at_Created _)) as H.
    rewrite app_nil_r in H. unfold IterStep_run. rewrite H.
    unfold prepend; simpl. rewrite app_nil_r. reflexivity.
  - unfold count_Failure, count_Payload.
    induction envs as [|[[l|] [r|]] envs IH]; simpl in *; lia.
Qed.

(** X9: when a pull on the source raises [WorkflowFatalError] after the
    envelopes [pre], the consumer has received the elements of [pre] and its
    next pull raises that same exception; the recorder keeps what [pre]
    booked, without a failure record for the abort, and one error line is
    logged. *)
Theorem IterStep_run_fatal
  (pre : list (Either Entity)) (err : PyExc)
  (rest : Iterable (Either Entity)) (m : nat) (s : Env) :
  err.(exc_class) = WorkflowFatalError ->
  pull (length (flat_map emissions pre) + S m)
    (IterStep_run (map Normal pre ++ Raise err :: rest)) s
  = (flat_map emissions pre, Aborted err,
     {| status := (recorded pre s).(status);
        logger :=
          s.(logger) ++
          [(ERROR, "Fatal error running step [" +:+ self_str +:+ "]: ["
                     +:+ err.(exc_str) +:+ "]")] |}).
Proof.
  intros Hc. unfold IterStep_run.
  rewrite (pull_prefix pre (Raise err :: rest)) by apply resumes_at_Created.
  unfold prepend. simpl. unfold IterStep_except. rewrite Hc. simpl.
  rewrite app_nil_r. reflexivity.
Qed.

(** X10: however far a consumer pulls, over any source, what it has
    received matches the books: [successCount] has grown by the number of
    payloads received, [failureCount] by the number of [None] placeholders
    received, plus at most one for an "Unhandled" record once the sequence
    has ended.  While the generator is merely suspended the match is exact,
    each of the [n] pulls was served, and nothing has been logged. *)
Theorem IterStep_run_books_what_it_emits
  (it : Iterable (Either Entity)) (n : nat) (s : Env) :
  let r := pull n (IterStep_run it) s in
  r.2.(status).(Status.successCount)
    = s.(status).(Status.successCount) + payloads r.1.1 /\
  s.(status).(Status.failureCount) + placeholders r.1.1
    <= r.2.(status).(Status.failureCount) /\
  r.2.(status).(Status.failureCount)
    <= S (s.(status).(Status.failureCount) + placeholders r.1.1) /\
  (forall g', r.1.2 = Suspended g' ->
     length r.1.1 = n /\
     r.2.(status).(Status.failureCount)
       = s.(status).(Status.failureCount) + placeholders r.1.1 /\
     r.2.(logger) = s.(logger)).
Proof. apply pull_books. Qed.

(** X11: over any source and however far the consumer pulls, an
    exception reaches the consumer only if a pull on the source raised it
    and the [except Exception] clause does not catch it: a
    [WorkflowFatalError], or an exception outside [Exception] such as
    [KeyboardInterrupt].  The latter, raised after the envelopes [pre],
    reaches the consumer as it came once the elements of [pre] have been
    received: the recorder holds what [pre] booked, nothing is logged and
    nothing is recorded for it. *)
Theorem IterStep_run_raises_only_uncaught
  (it : Iterable (Either Entity)) (s : Env) :
  (forall n e, (pull n (IterStep_run it) s).1.2 = Aborted e ->
     e.(exc_class) <> Exception /\ In (Raise e) it) /\
  (forall pre exc rest m,
     it = map Normal pre ++ Raise exc :: rest ->
     exc.(exc_class) = BaseException ->
     pull (length (flat_map emissions pre) + S m) (IterStep_run it) s
     = (flat_map emissions pre, Aborted exc, recorded pre s)).
Proof.
  split.
  - intros n e. apply pull_Aborted.
  - intros pre exc rest m -> Hc. unfold IterStep_run.
    rewrite (pull_prefix pre (Raise exc :: rest))
      by apply resumes_at_Created.
    unfold prepend. simpl. unfold IterStep_except. rewrite Hc. simpl.
    rewrite app_nil_r. reflexivity.
Qed.

(** X12: a generator that has ended stays ended.  When a [next], from any
    suspension point, is answered by [StopIteration] or by an exception, the
    frame is closed: every later pull is answered by [StopIteration] and
    leaves recorder and log as they were, whatever the source had left. *)
Theorem IterStep_run_ended_stays_ended (g : Frame) (s : Env) (k : nat) :
  let r := next g s in
  (forall v, r.1.1 <> Yield v) ->
  r.1.2 = Closed /\ pull (S k) r.1.2 r.2 = ([], Exhausted, r.2).
Proof.
  intros r Hr. subst r. pose proof (next_served g s) as H.
  destruct (next g s) as [[[v| |e] g1] s1]; simpl in *.
  - destruct (Hr v eq_refl).
  - destruct H as (-> & _). split; reflexivity.
  - destruct H as (-> & _). split; reflexivity.
Qed.

End Step.

Arguments ReturnStep_run {Entity} self_str _run _.
Arguments Created {Entity} it.
Arguments AtYieldNone {Entity} result it.
Arguments AtYieldRight {Entity} it.
Arguments Closed {Entity}.
Arguments Yield {Entity} v.
Arguments StopIteration {Entity}.
Arguments Raised {Entity} e.
Arguments Suspended {Entity} g.
Arguments Exhausted {Entity}.
Arguments Aborted {Entity} e.
Arguments next {Entity} self_str g s.
Arguments pull {Entity} self_str n g s.
Arguments IterStep_run {Entity} _iter.
Arguments emissions {Entity} e.

(* ------------------------------------------------------------------ *)
(** ** The scenarios, run                                               *)
(* ------------------------------------------------------------------ *)

Example scenario_return_payload :
  ReturnStep_run "step" (Normal (Payload "rec-1")) Step_init
  = (Normal (Some "rec-1"),
     {| status := {| Status.successCount := 1; Status.failureCount := 0;
                     Status.failures := [] |};
        logger := [] |}).
Proof. reflexivity. Qed.

Example scenario_return_failure :
  ReturnStep_run (Entity := string) "step" (Normal (Failure ParseError))
    Step_init
  = (Normal None,
     {| status := {| Status.successCount := 0; Status.failureCount := 1;
                     Status.failures := [ParseError] |};
        logger := [] |}).
Proof. reflexivity. Qed.

Example scenario_iter :
  pull "step" 4
    (IterStep_run
       [Normal (Payload "A"); Normal (Failure ParseError);
        Normal (Payload "B")]) Step_init
  = ([Some "A"; None; Some "B"], Exhausted,
     {| status := {| Status.successCount := 2; Status.failureCount := 1;
                     Status.failures := [ParseError] |};
        logger := [] |}).
Proof. reflexivity. Qed.

Example scenario_return_fatal :
  ReturnStep_run (Entity := string) "step" (Raise connection_lost) Step_init
  = (Raise connection_lost,
     {| status := Status.init;
        logger :=
          [(ERROR, "Fatal error running step [step]: [connection lost]")] |}).
Proof. reflexivity. Qed.

Example scenario_iter_fatal :
  pull "step" 3
    (IterStep_run
       [Normal (Payload "A"); Raise connection_lost; Normal (Payload "B")])
    Step_init
  = ([Some "A"], Aborted connection_lost,
     {| status := {| Status.successCount := 1; Status.failureCount := 0;
                     Status.failures := [] |};
        logger :=
          [(ERROR, "Fatal error running step [step]: [connection lost]")] |}).
Proof. reflexivity. Qed.

(* ------------------------------------------------------------------ *)
(** ** The theorems at concrete inputs                                  *)
(* ------------------------------------------------------------------ *)

Lemma ReturnStep_run_exactly_one_witness :
  exactly_one (Payload "rec-1") = true /\
  (ReturnStep_run "step" (Normal (Payload "rec-1")) Step_init).1
    = Normal (Some "rec-1") /\
  (ReturnStep_run "step" (Normal (Payload "rec-1")) Step_init).2
    .(status).(Status.successCount) = 1.
Proof.
  split; [reflexivity|].
  destruct (ReturnStep_run_exactly_one string "step" (Payload "rec-1")
              Step_init eq_refl) as [HP _].
  destruct (HP "rec-1" eq_refl) as (H1 & H2 & _).
  split; [exact H1|exact H2].
Defined.

Lemma ReturnStep_run_fatal_witness :
  connection_lost.(exc_class) = WorkflowFatalError /\
  (ReturnStep_run (Entity := string) "step" (Raise connection_lost)
     Step_init).1 = Raise connection_lost /\
  (ReturnStep_run (Entity := string) "step" (Raise connection_lost)
     Step_init).2.(status) = Status.init.
Proof.
  split; [reflexivity|].
  destruct (ReturnStep_run_fatal string "step" connection_lost Step_init
              eq_refl) as (H1 & H2 & _).
  split; [exact H1|exact H2].
Defined.

Lemma ReturnStep_run_raises_only_uncaught_witness :
  boom.(exc_class) = Exception /\
  (ReturnStep_run (Entity := string) "step" (Raise boom) Step_init).1
    = Normal None /\
  (ReturnStep_run (Entity := string) "step" (Raise connection_lost)
     Step_init).1 = Raise connection_lost /\
  connection_lost.(exc_class) <> Exception /\
  keyboard_interrupt.(exc_class) = BaseException /\
  ReturnStep_run (Entity := string) "step" (Raise keyboard_interrupt)
    Step_init = (Raise keyboard_interrupt, Step_init).
Proof.
  split; [reflexivity|].
  split.
  { rewrite (proj1 (proj2 (ReturnStep_run_raises_only_uncaught string "step"
                             (Raise boom) Step_init)) boom eq_refl eq_refl).
    reflexivity. }
  split; [reflexivity|].
  split.
  { exact (proj1 (proj1 (ReturnStep_run_raises_only_uncaught string "step"
                           (Raise connection_lost) Step_init)
                    connection_lost eq_refl)). }
  split; [reflexivity|].
  exact (proj2 (proj2 (ReturnStep_run_raises_only_uncaught string "step"
                         (Raise keyboard_interrupt) Step_init))
           keyboard_interrupt eq_refl eq_refl).
Defined.

(** C5, as stated, at a concrete unit of work: [_run] raises
    [KeyboardInterrupt], which is not the fatal signal.  Neither [except]
    clause matches it, so it leaves [run], with recorder and log as they
    were. *)
Lemma ReturnStep_run_KeyboardInterrupt_escapes :
  keyboard_interrupt.(exc_class) <> WorkflowFatalError /\
  ReturnStep_run (Entity := string) "step" (Raise keyboard_interrupt)
    Step_init = (Raise keyboard_interrupt, Step_init).
Proof. split; [discriminate|reflexivity]. Qed.

Lemma ReturnStep_run_neither_witness :
  ReturnStep_run (Entity := string) "step"
    (Normal {| models.left := None; models.right := None |}) Step_init
  = (Normal None, Step_init).
Proof.
  apply (ReturnStep_run_neither string "step"
           {| models.left := None; models.right := None |} Step_init);
    reflexivity.
Defined.

Lemma StageStep_run_counts_witness :
  forallb exactly_one
    [Payload "a"; Failure ParseError; Payload "b"] = true /\
  (StageStep_run "step"
     [Normal (Payload "a"); Normal (Failure ParseError); Normal (Payload "b")]
     Step_init).2.(status).(Status.failureCount) = 1 /\
  (StageStep_run "step"
     [Normal (Payload "a"); Normal (Failure ParseError); Normal (Payload "b")]
     Step_init).2.(status).(Status.successCount) = 2.
Proof.
  split; [reflexivity|].
  destruct (StageStep_run_counts "step"
              [Payload "a"; Failure ParseError; Payload "b"] Step_init
              eq_refl) as (_ & _ & _ & H).
  exact (H eq_refl).
Defined.

Lemma IterStep_run_one_per_envelope_witness :
  forallb exactly_one
    [Payload "A"; Failure ParseError; Payload "B"] = true /\
  pull "step" 4
    (IterStep_run
       [Normal (Payload "A"); Normal (Failure ParseError);
        Normal (Payload "B")]) Step_init
  = ([Some "A"; None; Some "B"], Exhausted,
     recorded [Payload "A"; Failure ParseError; Payload "B"] Step_init).
Proof.
  split; [reflexivity|].
  exact (proj1 (IterStep_run_one_per_envelope string "step"
                  [Payload "A"; Failure ParseError; Payload "B"] Step_init
                  eq_refl)).
Defined.

Lemma IterStep_run_unexpected_ends_witness :
  boom.(exc_class) = Exception /\
  pull "step" 2
    (IterStep_run [Normal (Payload "A"); Raise boom; Normal (Payload "B")])
    Step_init
  = ([Some "A"], Exhausted,
     after_unhandled "Encountered exception running step [step]: [boom]"
       boom (recorded [Payload "A"] Step_init)).
Proof.
  split; [reflexivity|].
  exact (IterStep_run_unexpected_ends string "step" [Payload "A"] boom
           [Normal (Payload "B")] 0 Step_init eq_refl).
Defined.

(** C3, as stated, at a concrete source: the first pull on [still_viable]
    raises an unexpected error and the second would give the payload "A".
    The generator does not go on to that element: its first [next] already
    ends it, and no number of pulls ever brings "A" to the consumer. *)
Lemma IterStep_run_does_not_continue :
  next "step" (IterStep_run still_viable) Step_init
  = (StopIteration, Closed,
     after_unhandled "Encountered exception running step [step]: [boom]"
       boom Step_init) /\
  ~ (exists n,
       In (Some "A")
         (pull "step" n (IterStep_run still_viable) Step_init).1.1).
Proof.
  split; [reflexivity|].
  intros [[|n] H]; exact H.
Qed.

Lemma BulkStep_run_propagates_witness :
  bulk_run string [CallScanned string "a"] (Raise boom) Step_init
  = (Raise boom, env_scanned "a" Step_init) /\
  BulkStep_run (bulk_run string [CallScanned string "a"] (Raise boom))
    Step_init
  = (Raise boom, env_scanned "a" Step_init).
Proof.
  split; [reflexivity|].
  apply (BulkStep_run_propagates
           (bulk_run string [CallScanned string "a"] (Raise boom))
           Step_init (env_scanned "a" Step_init) boom).
  reflexivity.
Defined.

Arguments placeholders {Entity} vs.
Arguments payloads {Entity} vs.
Arguments source_of {Entity} g.

(* ------------------------------------------------------------------ *)
(** ** StageStep.run against the drained IterStep.run                   *)
(* ------------------------------------------------------------------ *)

Lemma length_emissions_le {Entity : Type} (envs : list (Either Entity)) :
  length (flat_map emissions envs) <= 2 * length envs.
Proof.
  induction envs as [|[[l|] [r|]] envs IH]; simpl in *; lia.
Qed.

(** X13: the two wrappers keep the same books.  Over the same source,
    draining the generator of [IterStep.run] to its end and one call of
    [StageStep.run] leave the same counts and the same failures by name, in
    the same order; the generator raises exactly when the stage raises, and
    it is the same exception.  When every raising pull of the source raises
    [WorkflowFatalError], recorder and log are equal altogether. *)
Theorem StageStep_IterStep_agree
  (self_str : string) (it : Iterable (Either string)) (n : nat) (s : Env) :
  2 * length it < n ->
  let sr := StageStep_run self_str it s in
  let ir := pull self_str n (IterStep_run it) s in
  ir.2.(status).(Status.successCount) = sr.2.(status).(Status.successCount) /\
  ir.2.(status).(Status.failureCount) = sr.2.(status).(Status.failureCount) /\
  map models.name ir.2.(status).(Status.failures)
    = map models.name sr.2.(status).(Status.failures) /\
  match sr.1 with
  | Normal _ => ir.1.2 = Exhausted
  | Raise e => ir.1.2 = Aborted e
  end /\
  ((forall e, In (Raise e) it -> e.(exc_class) = WorkflowFatalError) ->
   ir.2 = sr.2).
Proof.
  intros Hn sr ir. subst sr ir.
  destruct (split_at_first_raise it) as [Hsplit Htl].
  remember (items_before it) as pre eqn:Hpre.
  remember (from_first_raise it) as tl eqn:Heqtl.
  clear Hpre Heqtl. subst it.
  pose proof (length_emissions_le pre) as Hlen.
  rewrite length_app, length_map in Hn.
  replace n with (length (flat_map emissions pre)
                  + S (n - length (flat_map emissions pre) - 1)) by lia.
  unfold IterStep_run.
  rewrite (pull_prefix string self_str pre tl) by apply resumes_at_Created.
  rewrite StageStep_run_app_items, for_in_recorded.
  destruct Htl as [-> | (e & rest & ->)].
  - unfold prepend; simpl. repeat split.
  - unfold prepend, StageStep_run, try_except; simpl.
    unfold IterStep_except.
    destruct (exc_class e) eqn:Hc; simpl.
    + repeat split.
    + split; [reflexivity|]. split; [reflexivity|].
      split; [rewrite !map_app; reflexivity|].
      split; [reflexivity|].
      intros Hall. specialize (Hall e). rewrite Hc in Hall.
      discriminate Hall. apply in_or_app. right. left. reflexivity.
    + repeat split.
Qed.

(* ------------------------------------------------------------------ *)
(** ** Further theorems at concrete inputs                              *)
(* ------------------------------------------------------------------ *)

Lemma ReturnStep_run_failure_first_witness :
  ReturnStep_run "step"
    (Normal {| models.left := Some ParseError; models.right := Some "A" |})
    Step_init
  = (Normal None, env_failed ParseError Step_init).
Proof.
  apply (ReturnStep_run_failure_first string "step"
           {| models.left := Some ParseError; models.right := Some "A" |}
           ParseError Step_init).
  reflexivity.
Defined.

Lemma ReturnStep_run_returns_payload_iff_witness :
  (ReturnStep_run "step" (Normal (Payload "rec-1")) Step_init).1
    = Normal (Some "rec-1") /\
  (ReturnStep_run "step" (Normal (Payload "rec-1")) Step_init).2
    = env_scanned "rec-1" Step_init.
Proof.
  assert ((ReturnStep_run "step" (Normal (Payload "rec-1")) Step_init).1
          = Normal (Some "rec-1")) as H.
  { apply (proj2 (proj1 (ReturnStep_run_returns_payload_iff string "step"
                           (Normal (Payload "rec-1")) "rec-1" Step_init))).
    exists (Payload "rec-1"). repeat split. }
  split; [exact H|].
  exact (proj2 (ReturnStep_run_returns_payload_iff string "step"
                  (Normal (Payload "rec-1")) "rec-1" Step_init) H).
Defined.

Lemma StageStep_run_fatal_witness :
  connection_lost.(exc_class) = WorkflowFatalError /\
  (StageStep_run "step"
     [Normal (Payload "a"); Raise connection_lost; Normal (Payload "b")]
     Step_init).1 = Raise connection_lost.
Proof.
  split; [reflexivity|].
  exact (f_equal fst
           (StageStep_run_fatal "step" [Payload "a"] connection_lost
              [Normal (Payload "b")] Step_init eq_refl)).
Defined.


Lemma StageStep_run_raises_only_uncaught_witness :
  (StageStep_run "step" [Normal (Payload "a"); Raise connection_lost]
     Step_init).1 = Raise connection_lost /\
  connection_lost.(exc_class) <> Exception /\
  In (Raise connection_lost)
    [Normal (Payload "a"); Raise connection_lost] /\
  keyboard_interrupt.(exc_class) = BaseException /\
  StageStep_run "step"
    [Normal (Payload "a"); Raise keyboard_interrupt; Normal (Payload "b")]
    Step_init
  = (Raise keyboard_interrupt, recorded [Payload "a"] Step_init).
Proof.
  split; [reflexivity|].
  split.
  { exact (proj1 (proj1 (StageStep_run_raises_only_uncaught "step"
                           [Normal (Payload "a"); Raise connection_lost]
                           Step_init) connection_lost eq_refl)). }
  split.
  { exact (proj2 (proj1 (StageStep_run_raises_only_uncaught "step"
                           [Normal (Payload "a"); Raise connection_lost]
                           Step_init) connection_lost eq_refl)). }
  split; [reflexivity|].
  exact (proj2 (StageStep_run_raises_only_uncaught "step"
                  [Normal (Payload "a"); Raise keyboard_interrupt;
                   Normal (Payload "b")] Step_init)
           [Payload "a"] keyboard_interrupt [Normal (Payload "b")]
           eq_refl eq_refl).
Defined.

Lemma IterStep_run_fatal_witness :
  connection_lost.(exc_class) = WorkflowFatalError /\
  (pull "step" 2
     (IterStep_run
        [Normal (Payload "A"); Raise connection_lost; Normal (Payload "B")])
     Step_init).1 = ([Some "A"], Aborted connection_lost).
Proof.
  split; [reflexivity|].
  exact (f_equal fst
           (IterStep_run_fatal string "step" [Payload "A"] connection_lost
              [Normal (Payload "B")] 0 Step_init eq_refl)).
Defined.

Lemma IterStep_run_books_what_it_emits_witness :
  (pull "step" 2
     (IterStep_run
        [Normal (Failure ParseError); Normal (Payload "A");
         Normal (Payload "B")]) Step_init).1.2
  = Suspended
      (AtYieldRight [Normal (Payload "B")]) /\
  (pull "step" 2
     (IterStep_run
        [Normal (Failure ParseError); Normal (Payload "A");
         Normal (Payload "B")]) Step_init).2.(logger) = [].
Proof.
  split; [reflexivity|].
  destruct (IterStep_run_books_what_it_emits string "step"
              [Normal (Failure ParseError); Normal (Payload "A");
               Normal (Payload "B")] 2 Step_init) as (_ & _ & _ & H).
  destruct (H (AtYieldRight [Normal (Payload "B")]) eq_refl) as (_ & _ & HL).
  exact HL.
Defined.

Lemma IterStep_run_raises_only_uncaught_witness :
  (pull "step" 2
     (IterStep_run [Normal (Payload "A"); Raise connection_lost])
     Step_init).1.2 = Aborted connection_lost /\
  connection_lost.(exc_class) <> Exception /\
  In (Raise connection_lost)
    [Normal (Payload "A"); Raise connection_lost] /\
  keyboard_interrupt.(exc_class) = BaseException /\
  pull "step" 2
    (IterStep_run
       [Normal (Payload "A"); Raise keyboard_interrupt; Normal (Payload "B")])
    Step_init
  = ([Some "A"], Aborted keyboard_interrupt,
     recorded [Payload "A"] Step_init).
Proof.
  split; [reflexivity|].
  split.
  { exact (proj1 (proj1 (IterStep_run_raises_only_uncaught string "step"
                           [Normal (Payload "A"); Raise connection_lost]
                           Step_init) 2 connection_lost eq_refl)). }
  split.
  { exact (proj2 (proj1 (IterStep_run_raises_only_uncaught string "step"
                           [Normal (Payload "A"); Raise connection_lost]
                           Step_init) 2 connection_lost eq_refl)). }
  split; [reflexivity|].
  exact (proj2 (IterStep_run_raises_only_uncaught string "step"
                  [Normal (Payload "A"); Raise keyboard_interrupt;
                   Normal (Payload "B")] Step_init)
           [Payload "A"] keyboard_interrupt [Normal (Payload "B")] 0
           eq_refl eq_refl).
Defined.

Lemma IterStep_run_ended_stays_ended_witness :
  (forall v,
     (next "step" (IterStep_run still_viable) Step_init).1.1 <> Yield v) /\
  (next "step" (IterStep_run still_viable) Step_init).1.2 = Closed.
Proof.
  assert (forall v,
            (next "step" (IterStep_run still_viable) Step_init).1.1
            <> Yield v) as H by (intros v; discriminate).
  split; [exact H|].
  exact (proj1 (IterStep_run_ended_stays_ended string "step"
                  (IterStep_run still_viable) Step_init 0 H)).
Defined.

Lemma StageStep_IterStep_agree_witness :
  2 * length still_viable < 5 /\
  (pull "step" 5 (IterStep_run still_viable) Step_init)
    .2.(status).(Status.failureCount)
  = (StageStep_run "step" still_viable Step_init)
    .2.(status).(Status.failureCount).
Proof.
  split; [simpl; lia|].
  assert (2 * length still_viable < 5) as H by (simpl; lia).
  exact (proj1 (proj2 (StageStep_IterStep_agree "step" still_viable 5
                         Step_init H))).
Defined.
